(** * Core ML fixture generators: a shallow embedding and its properties

    The repository holds two scripts that are each to write the model
    file [simple_model.mlmodel] for the function y = 2*x + 1:

    - [create_simple_model.py] fits a one-feature linear regression on
      five literal samples and hands the fitted estimator to the
      converter, which refuses the arguments the script gives it, so
      that a run ends there with the converter's exception;
    - [create_simple_model_manual.py] builds a one-layer network by hand.

    Each script is embedded as a program of a small state-and-exception
    monad over a world made of a file store and an event log.  The
    calls into scikit-learn and coremltools are embedded by what they
    do to the values the scripts hand them; each script is also given
    with these calls as parameters, for what it does whatever they do.

    Numbers.  Every float literal of the two scripts is a small integer
    (1..5, 3..11, 2.0, 1.0), exactly representable in binary32 and in
    binary64.  Arithmetic is carried out over the rationals [Q]: the
    development is about the exact values, and rounding inside a
    floating-point solver or inference runtime is outside of it. *)

From Stdlib Require Import QArith Qabs Lqa.
From stdpp Require Import gmap strings list.

(** ** Exceptions and results *)

Inductive exn :=
  | ValueError (msg : string)
  | TypeError (msg : string).

Inductive result (A : Type) :=
  | Ok (a : A)
  | Raise (e : exn).
Arguments Ok {A} a.
Arguments Raise {A} e.

Definition is_ok {A} (r : result A) : bool :=
  match r with Ok _ => true | Raise _ => false end.

(** ** numpy: the array operations the fit needs *)

Module np.
Local Open Scope Q_scope.

Definition sum (v : list Q) : Q := foldr Qplus 0 v.

Definition dot (u v : list Q) : Q := sum (zip_with Qmult u v).

(** The number of elements, as a number. *)
Definition size (v : list Q) : Q := inject_Z (Z.of_nat (length v)).

Definition mean (v : list Q) : Q := sum v / size v.

(** Whether a value is one a float32 array holds exactly: an integer
    of magnitude at most 2^24. *)
Definition float32_integer (q : Q) : bool :=
  Pos.eqb (Qden q) 1 && Z.leb (Z.abs (Qnum q)) (2 ^ 24).
End np.

(** ** scikit-learn: ordinary least squares on one feature *)

Module LinearRegression.
Local Open Scope Q_scope.

(** The estimator object: the constructor parameter [copy_X], which
    the script leaves at its default, and the attributes [fit] sets.
    The intercept is always fitted, as by default. *)
Record t := mk {
  copy_X : bool;
  coef_ : option (list Q);
  intercept_ : option Q
}.

(** [LinearRegression()] *)
Definition new : t :=
  {| copy_X := true; coef_ := None; intercept_ := None |}.

(** The single column of a sample matrix with one feature per row. *)
Definition column (X : list (list Q)) : option (list Q) :=
  mapM (fun row => match row with [x] => Some x | _ => None end) X.

Definition center (offset : Q) (v : list Q) : list Q :=
  map (fun x => x - offset) v.

(** Modelled from the spec: [model.fit(X, y)] is scikit-learn's, and
    not part of the repository.  The glossary defines linear
    regression as fitting y = w*x + b by minimizing the squared error
    over the samples; this is that minimizer in closed form for one
    feature, computed the way the estimator is documented to: the
    data are centered on their means, the slope is solved on the
    centered data, and the intercept is recovered from the means
    ([fit_minimizes_squared_error] below shows that it minimizes).
    A constant feature gives the slope 0, the division by zero of [Q]
    agreeing with the least-norm solution.  Sample counts that differ
    and an empty sample raise; rows of another width than one are
    outside of this one-feature model and raise as well.  With
    [copy_X] the caller's array is left as it was; without it the
    centered data overwrite it.  The second component of the result is
    the caller's [X] after the call. *)
Definition fit (self : t) (X : list (list Q)) (y : list Q)
  : result (t * list (list Q)) :=
  if negb (length X =? length y)%nat then
    Raise (ValueError "Found input variables with inconsistent numbers of samples")
  else
    match column X with
    | None => Raise (ValueError "Expected one feature per sample")
    | Some xs =>
        if (length xs =? 0)%nat then
          Raise (ValueError "Found array with 0 sample(s)")
        else
          let X_offset := np.mean xs in
          let y_offset := np.mean y in
          let Xc := center X_offset xs in
          let yc := center y_offset y in
          let w := np.dot Xc yc / np.dot Xc Xc in
          Ok ({| copy_X := copy_X self;
                 coef_ := Some [w];
                 intercept_ := Some (y_offset - X_offset * w) |},
              if copy_X self then X else map (fun x => [x]) Xc)
    end.

(** The squared error of the line y = w*x + b over the samples. *)
Definition squared_error (w b : Q) (xs ys : list Q) : Q :=
  np.sum (zip_with (fun x y => (w * x + b - y) * (w * x + b - y)) xs ys).
End LinearRegression.

(** ** coremltools: feature types and the model description *)

Module datatypes.
(** The feature types: [datatypes.Int64()], [datatypes.Double()],
    [datatypes.String()] and [datatypes.Array(n)]. *)
Inductive t :=
  | Int64
  | Double
  | String
  | Array (n : nat).

(** How many numbers a feature of the type carries. *)
Definition num_elements (d : t) : nat :=
  match d with
  | Int64 | Double | String => 1
  | Array n => n
  end.

(** Modelled from the spec: the table of type names is coremltools',
    and not part of the repository.  The spec leaves to the library
    which feature types a conversion takes, and names incompatible
    feature types as the failure of the conversion (section 4.1).  A
    type given by name is given by the name of its class, "Int64",
    "Double" or "String", and the case matters: the lower-case
    "double" of [("input", "double")] is not a name of the table. *)
Definition of_name (s : string) : option t :=
  if String.eqb s "Int64" then Some Int64
  else if String.eqb s "Double" then Some Double
  else if String.eqb s "String" then Some String
  else None.
End datatypes.

Record FeatureDescription := {
  name : string;
  type : datatypes.t
}.

Record Metadata := {
  shortDescription : string;
  author : string;
  versionString : string
}.

Record InnerProductLayerParams := {
  inputChannels : nat;
  outputChannels : nat;
  hasBias : bool;
  weights : list (list Q);
  bias : list Q
}.

Record NeuralNetworkLayer := {
  layer_name : string;
  layer_input : string;
  layer_output : string;
  innerProduct : InnerProductLayerParams
}.

(** The two kinds of model the scripts produce. *)
Inductive ModelType :=
  | glmRegressor (glm_weights : list (list Q)) (glm_offset : list Q)
  | neuralNetwork (layers : list NeuralNetworkLayer).

Record Model := {
  input : list FeatureDescription;
  output : list FeatureDescription;
  metadata : Metadata;
  Type_ : ModelType
}.

Definition empty_metadata : Metadata :=
  {| shortDescription := ""; author := ""; versionString := "" |}.

(** [MLModel(spec)]: the model container around a description. *)
Record mlmodel := MLModel { get_spec : Model }.

(** The assignments [m.short_description = s], [m.author = s] and
    [m.version = s] store into the metadata of the description. *)
Definition with_metadata (f : Metadata -> Metadata) (m : mlmodel) : mlmodel :=
  MLModel {| input := input (get_spec m);
             output := output (get_spec m);
             metadata := f (metadata (get_spec m));
             Type_ := Type_ (get_spec m) |}.

Definition set_short_description (s : string) : mlmodel -> mlmodel :=
  with_metadata (fun md => {| shortDescription := s;
                              author := author md;
                              versionString := versionString md |}).

Definition set_author (s : string) : mlmodel -> mlmodel :=
  with_metadata (fun md => {| shortDescription := shortDescription md;
                              author := s;
                              versionString := versionString md |}).

Definition set_version (s : string) : mlmodel -> mlmodel :=
  with_metadata (fun md => {| shortDescription := shortDescription md;
                              author := author md;
                              versionString := s |}).

(** ** coremltools: the scikit-learn converter *)

Module converters_sklearn.
Definition named_features (fs : list (string * string))
  : option (list FeatureDescription) :=
  mapM (fun '(n, ty) =>
          d ← datatypes.of_name ty;
          Some {| name := n; type := d |}) fs.

Definition dimension (fs : list FeatureDescription) : nat :=
  sum_list (map (fun f => datatypes.num_elements (type f)) fs).

(** Modelled from the spec: [ct.converters.sklearn.convert(model,
    input_features, output_feature_names)] is coremltools', and not
    part of the repository.  The spec has whatever the conversion
    raises propagate uncaught, incompatible feature types for one
    (section 4.1).  The library checks its arguments before it builds
    anything, in this order: the estimator is fitted; the input
    features are pairs of a name and a type the library knows, and
    carry as many numbers as the estimator has coefficients; and for a
    regressor the output is one name, given as a string.  The output
    names here are a list, as the script gives them, and a list is
    refused also when it holds one name.  So a call of this form
    raises TypeError whatever it is given; the messages say which
    check refused and are not the library's text. *)
Definition convert (sk_obj : LinearRegression.t)
    (input_features : list (string * string))
    (output_feature_names : list string) : result mlmodel :=
  match LinearRegression.coef_ sk_obj, LinearRegression.intercept_ sk_obj with
  | Some coef, Some intercept =>
      match named_features input_features with
      | None =>
          Raise (TypeError "input_features: not (name, datatype) pairs of known types")
      | Some features =>
          if negb (dimension features =? length coef)%nat then
            Raise (TypeError "input_features: dimension mismatch")
          else
            Raise (TypeError "output_feature_names: a regressor takes one name, not a list")
      end
  | _, _ => Raise (TypeError "Expected a fitted model for conversion")
  end.
End converters_sklearn.

(** ** coremltools: the network builder *)

Record neural_network_builder := { spec : Model }.

(** Modelled from the spec: the builder is coremltools', and not part
    of the repository.  [NeuralNetworkBuilder(input_features,
    output_features)] starts a network description with the declared
    features and no layer yet. *)
Definition NeuralNetworkBuilder
    (input_features output_features : list (string * datatypes.t))
  : neural_network_builder :=
  let declare := map (fun '(n, d) => {| name := n; type := d |}) in
  {| spec := {| input := declare input_features;
                output := declare output_features;
                metadata := empty_metadata;
                Type_ := neuralNetwork [] |} |}.

(** Modelled from the spec: [builder.add_inner_product(name, W, b,
    input_channels, output_channels, has_bias, input_name,
    output_name)] adds one fully-connected transformation with the
    given weight matrix and bias vector after the layers added before;
    the bias is stored only when [has_bias]. *)
Definition add_inner_product (self : neural_network_builder) (name : string)
    (W : list (list Q)) (b : list Q) (input_channels output_channels : nat)
    (has_bias : bool) (input_name output_name : string)
  : neural_network_builder :=
  let layer :=
    {| layer_name := name;
       layer_input := input_name;
       layer_output := output_name;
       innerProduct := {| inputChannels := input_channels;
                          outputChannels := output_channels;
                          hasBias := has_bias;
                          weights := W;
                          bias := if has_bias then b else [] |} |} in
  let s := spec self in
  {| spec := {| input := input s;
                output := output s;
                metadata := metadata s;
                Type_ := match Type_ s with
                         | neuralNetwork ls => neuralNetwork (ls ++ [layer])
                         | other => other
                         end |} |}.

(** ** Inference: what a saved model computes *)

Inductive value :=
  | DoubleValue (x : Q)
  | MultiArrayValue (xs : list Q).

Definition has_type (d : datatypes.t) (v : value) : bool :=
  match d, v with
  | datatypes.Double, DoubleValue _ => true
  | datatypes.Array n, MultiArrayValue xs => (length xs =? n)%nat
  | _, _ => false
  end.

Definition numbers (v : value) : list Q :=
  match v with
  | DoubleValue x => [x]
  | MultiArrayValue xs => xs
  end.

(** Modelled from the spec: the inference runtime is not part of the
    repository.  The glossary defines the fully-connected / inner-product
    layer as computing output = W*input + b for a weight matrix W and a
    bias vector b; the input must have [inputChannels] components. *)
Definition inner_product (p : InnerProductLayerParams) (x : list Q)
  : option (list Q) :=
  if negb (length x =? inputChannels p)%nat then None
  else
    let Wx := map (fun row => np.dot row x) (weights p) in
    Some (if hasBias p then zip_with Qplus Wx (bias p) else Wx).

(** A layer reads its input blob and writes its output blob. *)
Definition run_layer (blobs : gmap string (list Q)) (l : NeuralNetworkLayer)
  : option (gmap string (list Q)) :=
  x ← blobs !! layer_input l;
  y ← inner_product (innerProduct l) x;
  Some (<[layer_output l := y]> blobs).

Fixpoint run_layers (ls : list NeuralNetworkLayer) (blobs : gmap string (list Q))
  : option (gmap string (list Q)) :=
  match ls with
  | [] => Some blobs
  | l :: rest => blobs' ← run_layer blobs l; run_layers rest blobs'
  end.

(** The declared inputs, looked up by name and checked against their
    declared types. *)
Definition read_inputs (fs : list FeatureDescription) (data : gmap string value)
  : option (list (string * value)) :=
  mapM (fun f =>
          v ← data !! name f;
          if has_type (type f) v then Some (name f, v) else None) fs.

(** Modelled from the spec: [predict] is the inference runtime's, and
    not part of the repository.  A linear regressor computes the affine
    map offset + weights*input of the glossary's y = w*x + b; a network
    runs its layers in order from the input blobs and returns the blobs
    of the declared outputs.  The result maps output names to values, as
    the data maps input names to values. *)
Definition predict (m : mlmodel) (data : gmap string value)
  : option (gmap string value) :=
  let s := get_spec m in
  ins ← read_inputs (input s) data;
  match Type_ s with
  | glmRegressor [w] [b] =>
      let x := concat (map (fun nv => numbers (snd nv)) ins) in
      if negb (length x =? length w)%nat then None
      else
        Some (list_to_map
                (map (fun f => (name f, DoubleValue (b + np.dot w x)%Q))
                     (output s)))
  | glmRegressor _ _ => None
  | neuralNetwork ls =>
      blobs ← run_layers ls
                (list_to_map (map (fun nv => (fst nv, numbers (snd nv))) ins));
      outs ← mapM (fun f =>
                     y ← blobs !! name f;
                     Some (name f, MultiArrayValue y)) (output s);
      Some (list_to_map outs)
  end.

(** ** The world a script runs in *)

Inductive event :=
  | Saved (path : string) (m : mlmodel)
  | Printed (line : string).

(** The file store, the log of what the script did in order, and the
    surroundings a script could read: the command line and the process
    environment. *)
Record World := {
  fs : gmap string mlmodel;
  events : list event;
  argv : list string;
  environ : gmap string string
}.

(** The lines printed so far. *)
Definition stdout (w : World) : list string :=
  omap (fun e => match e with Printed l => Some l | Saved _ _ => None end)
       (events w).

(** A script step: it ends normally with a value or raises, and leaves
    a world either way. *)
Definition Script (A : Type) : Type := World -> result A * World.

Definition ret {A} (a : A) : Script A := fun w => (Ok a, w).

Definition bind {A B} (m : Script A) (k : A -> Script B) : Script B :=
  fun w =>
    match m w with
    | (Ok a, w') => k a w'
    | (Raise e, w') => (Raise e, w')
    end.

(** A library call that touches no file and prints nothing. *)
Definition call {A} (r : result A) : Script A := fun w => (r, w).

Global Instance script_ret : MRet Script := @ret.
Global Instance script_bind : MBind Script := fun A B k m => bind m k.

(** Modelled from the spec: [m.save(path)] is coremltools', and not
    part of the repository.  The artifact is created fresh on each
    invocation and overwritten if the script is run again: the file is
    written whether or not it exists already, and the earlier content,
    if any, is replaced.  The file is taken to hold the model as it
    is; failures of the file system are outside of the model. *)
Definition save (m : mlmodel) (path : string) : Script unit :=
  fun w => (Ok tt, {| fs := <[path := m]> (fs w);
                      events := events w ++ [Saved path m];
                      argv := argv w;
                      environ := environ w |}).

(** [print(line)] *)
Definition print (line : string) : Script unit :=
  fun w => (Ok tt, {| fs := fs w;
                      events := events w ++ [Printed line];
                      argv := argv w;
                      environ := environ w |}).

(** ** create_simple_model.py: the trainer-based generator *)

Module create_simple_model.

(** Lines 12-13: the training data, as float32 arrays. *)
Definition X : list (list Q) := [[1]; [2]; [3]; [4]; [5]]%Q.
Definition y : list Q := [3; 5; 7; 9; 11]%Q.

(** Lines 27-29: the three metadata assignments. *)
Definition add_metadata (coreml_model : mlmodel) : mlmodel :=
  let coreml_model :=
    set_short_description "Simple linear regression: y = 2*x + 1" coreml_model in
  let coreml_model := set_author "CoreML Experiment" coreml_model in
  set_version "1.0" coreml_model.

(** Lines 33-36: the closing messages. *)
Definition report : Script unit :=
  print "✅ Created simple_model.mlmodel";;
  print "   Formula: y = 2*x + 1";;
  print "   Input: 'input' (double)";;
  print "   Output: 'output' (double)".

(** The module-level names when the script ends. *)
Record globals := {
  g_X : list (list Q);
  g_y : list Q;
  g_model : LinearRegression.t;
  g_coreml_model : mlmodel
}.

(** The script, top to bottom. *)
Definition main : Script globals :=
  let X := X in
  let y := y in
  let model := LinearRegression.new in
  '(model, X) ← call (LinearRegression.fit model X y);
  coreml_model ← call (converters_sklearn.convert
                         model [("input", "double")] ["output"]);
  let coreml_model := add_metadata coreml_model in
  save coreml_model "simple_model.mlmodel";;
  report;;
  mret {| g_X := X; g_y := y; g_model := model;
          g_coreml_model := coreml_model |}.

End create_simple_model.

(** ** create_simple_model_manual.py: the manual-builder generator *)

Module create_simple_model_manual.

(** Lines 13-29: the builder, with its one layer. *)
Definition builder : neural_network_builder :=
  let builder :=
    NeuralNetworkBuilder [("input", datatypes.Array 1)]
                         [("output", datatypes.Array 1)] in
  add_inner_product builder "linear"
    [[2]]%Q        (* W = np.array([[2.0]]) *)
    [1]%Q          (* b = np.array([1.0]) *)
    1 1 true "input" "output".

(** Lines 36-38: the three metadata assignments. *)
Definition add_metadata (model : mlmodel) : mlmodel :=
  let model :=
    set_short_description "Simple linear function: y = 2*x + 1" model in
  let model := set_author "CoreML Experiment" model in
  set_version "1.0" model.

(** Lines 42-46: the closing messages.  The first line starts with the
    bytes the source file has there (C3 A2 C5 93 E2 80 A6), which are
    not those of the check mark of the other script (E2 9C 85). *)
Definition report : Script unit :=
  print "âœ… Created simple_model.mlmodel";;
  print "   Formula: y = 2*x + 1";;
  print "   Input: 'input' (array of size 1)";;
  print "   Output: 'output' (array of size 1)";;
  print "   Test: input [3.0] should output [7.0]".

Record globals := {
  g_builder : neural_network_builder;
  g_model_spec : Model;
  g_model : mlmodel
}.

(** The script, top to bottom. *)
Definition main : Script globals :=
  let builder := builder in
  let model_spec := spec builder in
  let model := MLModel model_spec in
  let model := add_metadata model in
  save model "simple_model.mlmodel";;
  report;;
  mret {| g_builder := builder; g_model_spec := model_spec;
          g_model := model |}.

End create_simple_model_manual.

Definition empty_world : World :=
  {| fs := ∅; events := []; argv := []; environ := ∅ |}.

(** ** Observations on a run *)

(** The model a script leaves under the file name both scripts use. *)
Definition saved_model {A} (script : Script A) (w : World) : option mlmodel :=
  fs (snd (script w)) !! "simple_model.mlmodel".

(** [model.predict({"input": xs})["output"]] for a model with an array
    input and an array output. *)
Definition predict_array (m : mlmodel) (xs : list Q) : option (list Q) :=
  out ← predict m {[ "input" := MultiArrayValue xs ]};
  match out !! "output" with
  | Some (MultiArrayValue ys) => Some ys
  | _ => None
  end.

(** Two numbers agree within a tolerance. *)
Definition within (tol a b : Q) : Prop := (Qabs (a - b) <= tol)%Q.

(** Whether [needle] occurs in [s]. *)
Fixpoint contains (needle s : string) : bool :=
  String.prefix needle s
  || match s with
     | EmptyString => false
     | String _ rest => contains needle rest
     end.

(** What a run adds to the world: the file written and the lines
    printed after it. *)
Definition after_run (w : World) (path : string) (m : mlmodel)
    (lines : list string) : World :=
  {| fs := <[path := m]> (fs w);
     events := events w ++ Saved path m :: map Printed lines;
     argv := argv w;
     environ := environ w |}.

(** Whether the printed lines are the closing message: they confirm the
    file, restate the formula and describe the input and the output. *)
Definition success_message (lines : list string) : bool :=
  existsb (contains "Created simple_model.mlmodel") lines
  && existsb (contains "Formula: y = 2*x + 1") lines
  && existsb (contains "Input: 'input'") lines
  && existsb (contains "Output: 'output'") lines.

(** ** The scripts over any behaviour of the library *)

(** [create_simple_model.py] with the three library calls it makes as
    parameters: the same statements in the same order, for whatever
    [model.fit], [ct.converters.sklearn.convert] and [coreml_model.save]
    do.  The fit and the conversion return or raise; the save is a step
    on the world. *)
Definition trainer_main_with
    (fit : LinearRegression.t -> list (list Q) -> list Q ->
           result (LinearRegression.t * list (list Q)))
    (convert : LinearRegression.t -> list (string * string) -> list string ->
               result mlmodel)
    (save : mlmodel -> string -> Script unit)
  : Script create_simple_model.globals :=
  let X := create_simple_model.X in
  let y := create_simple_model.y in
  let model := LinearRegression.new in
  '(model, X) ← call (fit model X y);
  coreml_model ← call (convert model [("input", "double")] ["output"]);
  let coreml_model := create_simple_model.add_metadata coreml_model in
  save coreml_model "simple_model.mlmodel";;
  create_simple_model.report;;
  mret {| create_simple_model.g_X := X;
          create_simple_model.g_y := y;
          create_simple_model.g_model := model;
          create_simple_model.g_coreml_model := coreml_model |}.

(** [create_simple_model_manual.py] with the save as a parameter. *)
Definition manual_main_with (save : mlmodel -> string -> Script unit)
  : Script create_simple_model_manual.globals :=
  let builder := create_simple_model_manual.builder in
  let model_spec := spec builder in
  let model := MLModel model_spec in
  let model := create_simple_model_manual.add_metadata model in
  save model "simple_model.mlmodel";;
  create_simple_model_manual.report;;
  mret {| create_simple_model_manual.g_builder := builder;
          create_simple_model_manual.g_model_spec := model_spec;
          create_simple_model_manual.g_model := model |}.

(** The world after the lines are printed, one after the other. *)
Definition printed (w : World) (lines : list string) : World :=
  {| fs := fs w;
     events := events w ++ map Printed lines;
     argv := argv w;
     environ := environ w |}.

(** A save that refuses to replace a file, as a file opened for
    exclusive creation would; the scripts do not save this way. *)
Definition save_exclusive (m : mlmodel) (path : string) : Script unit :=
  fun w =>
    match fs w !! path with
    | Some _ => (Raise (ValueError "File exists"), w)
    | None => save m path w
    end.

(** A fit that is handed one target fewer than there are samples. *)
Definition fit_short (self : LinearRegression.t) (X : list (list Q))
    (y : list Q) : result (LinearRegression.t * list (list Q)) :=
  LinearRegression.fit self X (drop 1 y).

(** A conversion that returns, which the library's is not for the
    arguments of the script: it takes the type names in any case and a
    list of one output name, and gives the linear regressor on the
    fitted coefficients that the spec describes.  It stands for a
    conversion that accepts the call of lines 20-24, where a statement
    is about the lines after it. *)
Definition convert_accepting (sk_obj : LinearRegression.t)
    (input_features : list (string * string))
    (output_feature_names : list string) : result mlmodel :=
  match LinearRegression.coef_ sk_obj, LinearRegression.intercept_ sk_obj,
        output_feature_names with
  | Some coef, Some intercept, [target] =>
      Ok (MLModel
            {| input := map (fun nt => {| name := fst nt;
                                          type := datatypes.Double |})
                            input_features;
               output := [{| name := target; type := datatypes.Double |}];
               metadata := empty_metadata;
               Type_ := glmRegressor [coef] [intercept] |})
  | _, _, _ => Raise (TypeError "not accepted")
  end.

(** ** Running the scripts one after another *)

Inductive script :=
  | create_simple_model_py
  | create_simple_model_manual_py.



(** * Properties *)

(** ** Running the scripts *)

Lemma stdout_app (es : list event) (lines : list string) :
  omap (fun e => match e with Printed l => Some l | Saved _ _ => None end)
       (es ++ map Printed lines) =
  omap (fun e => match e with Printed l => Some l | Saved _ _ => None end) es
  ++ lines.
Proof.
  rewrite omap_app. f_equal.
  induction lines as [|x lines IH]; [reflexivity |].
  simpl. f_equal. exact IH.
Qed.

(** The manual-builder script ends normally in every world: it writes
    one model, the same in every world, and then prints five lines. *)
Lemma manual_main_run (w : World) :
  let model := create_simple_model_manual.add_metadata
                 (MLModel (spec create_simple_model_manual.builder)) in
  create_simple_model_manual.main w =
  (Ok {| create_simple_model_manual.g_builder :=
           create_simple_model_manual.builder;
         create_simple_model_manual.g_model_spec :=
           spec create_simple_model_manual.builder;
         create_simple_model_manual.g_model := model |},
   after_run w "simple_model.mlmodel" model
     ["âœ… Created simple_model.mlmodel";
      "   Formula: y = 2*x + 1";
      "   Input: 'input' (array of size 1)";
      "   Output: 'output' (array of size 1)";
      "   Test: input [3.0] should output [7.0]"]).
Proof.
  intros model. unfold create_simple_model_manual.main, after_run.
  unfold create_simple_model_manual.report, save, print.
  unfold mbind, script_bind, bind, mret, script_ret, ret. simpl.
  rewrite <- !app_assoc. reflexivity.
Qed.

(** ** Least squares on the training data *)

Section LeastSquares.
Local Open Scope Q_scope.

(** The feature column of the training matrix. *)
Lemma column_X :
  LinearRegression.column create_simple_model.X = Some [1; 2; 3; 4; 5].
Proof. reflexivity. Qed.

(** The squared error over the five samples, as two squares around the
    line y = 2*x + 1. *)
Lemma squared_error_training (w b : Q) :
  LinearRegression.squared_error w b [1; 2; 3; 4; 5] create_simple_model.y
  == 5 * (b - 1 + 3 * (w - 2)) * (b - 1 + 3 * (w - 2))
     + 10 * (w - 2) * (w - 2).
Proof.
  unfold LinearRegression.squared_error, np.sum, create_simple_model.y.
  simpl. ring.
Qed.

Lemma sq_nonneg (a : Q) : 0 <= a * a.
Proof. nra. Qed.

Lemma sq_le_zero (a : Q) : a * a <= 0 -> a == 0.
Proof. nra. Qed.

Lemma sq_le_sq (a t : Q) : 0 <= t -> a * a <= t * t -> Qabs a <= t.
Proof. intros Ht H. apply Qabs_Qle_condition. split; nra. Qed.

Lemma squared_error_nonneg (w b : Q) :
  0 <= LinearRegression.squared_error w b [1; 2; 3; 4; 5] create_simple_model.y.
Proof.
  rewrite squared_error_training.
  pose proof (sq_nonneg (b - 1 + 3 * (w - 2))).
  pose proof (sq_nonneg (w - 2)). lra.
Qed.

(** Only the line y = 2*x + 1 has no error on the samples. *)
Lemma minimizer_unique (w b : Q) :
  LinearRegression.squared_error w b [1; 2; 3; 4; 5] create_simple_model.y <= 0 ->
  w == 2 /\ b == 1.
Proof.
  rewrite squared_error_training. intros H.
  pose proof (sq_nonneg (b - 1 + 3 * (w - 2))).
  pose proof (sq_nonneg (w - 2)).
  assert (Hw : w - 2 == 0) by (apply sq_le_zero; lra).
  assert (Hb : b - 1 + 3 * (w - 2) == 0) by (apply sq_le_zero; lra).
  split; lra.
Qed.

(** A line that is nearly a minimizer is near y = 2*x + 1: a squared
    error of at most 10*tol^2 puts the slope within tol of 2 and the
    intercept within 5*tol of 1.  This is what is left of the exact
    result for a solver that only nearly minimizes. *)
Lemma near_minimizer_close (tol w b : Q) :
  0 <= tol ->
  LinearRegression.squared_error w b [1; 2; 3; 4; 5] create_simple_model.y
  <= 10 * tol * tol ->
  within tol w 2 /\ within (5 * tol) b 1.
Proof.
  rewrite squared_error_training. unfold within. intros Ht H.
  pose proof (sq_nonneg (b - 1 + 3 * (w - 2))).
  pose proof (sq_nonneg (w - 2)).
  assert (Hw : Qabs (w - 2) <= tol) by (apply sq_le_sq; lra).
  assert (Hu : Qabs (b - 1 + 3 * (w - 2)) <= 2 * tol).
  { apply sq_le_sq; [lra | nra]. }
  split; [exact Hw |].
  apply Qabs_Qle_condition in Hw. apply Qabs_Qle_condition in Hu.
  apply Qabs_Qle_condition. split; lra.
Qed.

Lemma within_of_eq (tol a b : Q) : 0 <= tol -> a == b -> within tol a b.
Proof.
  intros Ht E. unfold within. apply Qabs_Qle_condition. split; lra.
Qed.

(** *** Sums over the samples *)

Lemma size_cons a v : np.size (a :: v) == np.size v + 1.
Proof.
  unfold np.size. cbn [length]. rewrite Nat2Z.inj_succ, <- Z.add_1_r.
  rewrite inject_Z_plus. reflexivity.
Qed.

Lemma size_pos v : v <> [] -> 0 < np.size v.
Proof.
  intros H. destruct v as [|a v]; [congruence |].
  unfold np.size. rewrite <- (Zlt_Qlt 0). cbn [length]. lia.
Qed.

Lemma sum_center m v :
  np.sum (LinearRegression.center m v) == np.sum v - np.size v * m.
Proof.
  induction v as [|a v IH].
  - unfold np.size. simpl. ring.
  - rewrite size_cons. unfold np.sum in *. cbn [LinearRegression.center map foldr] in *.
    rewrite IH. ring.
Qed.

Lemma dot_cons a u b v : np.dot (a :: u) (b :: v) == a * b + np.dot u v.
Proof. reflexivity. Qed.

Lemma dot_center mx my xs ys :
  length xs = length ys ->
  np.dot (LinearRegression.center mx xs) (LinearRegression.center my ys)
  == np.dot xs ys - mx * np.sum ys - my * np.sum xs + np.size xs * mx * my.
Proof.
  revert ys. induction xs as [|x xs IH]; intros [|y ys] Hlen; try discriminate.
  - unfold np.size. simpl. ring.
  - injection Hlen as Hlen. rewrite size_cons.
    cbn [LinearRegression.center map]. rewrite !dot_cons.
    unfold LinearRegression.center in IH. rewrite (IH ys Hlen).
    unfold np.sum. cbn [foldr]. ring.
Qed.

Lemma squared_error_expand w b xs ys :
  length xs = length ys ->
  LinearRegression.squared_error w b xs ys
  == w * w * np.dot xs xs - 2 * w * np.dot xs ys + np.dot ys ys
     + 2 * b * (w * np.sum xs - np.sum ys) + np.size xs * b * b.
Proof.
  revert ys. induction xs as [|x xs IH]; intros [|y ys] Hlen; try discriminate.
  - unfold LinearRegression.squared_error, np.dot, np.sum, np.size. simpl. ring.
  - injection Hlen as Hlen. rewrite size_cons, !dot_cons.
    unfold LinearRegression.squared_error in *.
    unfold np.sum at 1. cbn [zip_with foldr].
    change (foldr Qplus 0 ?l) with (np.sum l).
    rewrite (IH ys Hlen).
    unfold np.sum. cbn [foldr]. ring.
Qed.

Lemma dot_self_nonneg v : 0 <= np.dot v v.
Proof.
  induction v as [|a v IH]; [unfold np.dot; simpl; lra |].
  rewrite dot_cons. pose proof (sq_nonneg a). lra.
Qed.

Lemma dot_self_zero v u : np.dot v v == 0 -> np.dot v u == 0.
Proof.
  revert u. induction v as [|a v IH]; intros [|b u] H; try reflexivity.
  rewrite dot_cons in *.
  pose proof (sq_nonneg a). pose proof (dot_self_nonneg v).
  assert (Ha : a == 0) by (apply sq_le_zero; lra).
  assert (Hv : np.dot v v == 0) by lra.
  rewrite (IH u Hv), Ha. ring.
Qed.

Lemma sum_mean v : v <> [] -> np.sum v == np.size v * np.mean v.
Proof.
  intros H. pose proof (size_pos v H). unfold np.mean.
  field. lra.
Qed.

Lemma column_length X xs : LinearRegression.column X = Some xs -> length xs = length X.
Proof.
  unfold LinearRegression.column. intros H. apply length_mapM in H. congruence.
Qed.

Lemma size_eq (u v : list Q) : length u = length v -> np.size u = np.size v.
Proof. unfold np.size. now intros ->. Qed.

(** The slope solves its normal equation, also when the feature is
    constant and the division is by zero. *)
Lemma slope_equation sxx sxy : (sxx == 0 -> sxy == 0) -> (sxy / sxx) * sxx == sxy.
Proof.
  intros H. destruct (Qeq_dec sxx 0) as [E | E].
  - rewrite (H E), E. unfold Qdiv. ring.
  - field. exact E.
Qed.

(** X6: the fit is the glossary's linear regression on any data:
    whenever the default estimator accepts the samples, it returns one
    slope and one intercept, and no line has a smaller squared error
    over the samples than the one it returns. *)
Theorem fit_minimizes_squared_error X y model X' :
  LinearRegression.fit LinearRegression.new X y = Ok (model, X') ->
  exists xs w b,
    LinearRegression.column X = Some xs
    /\ LinearRegression.coef_ model = Some [w]
    /\ LinearRegression.intercept_ model = Some b
    /\ forall w' b',
         LinearRegression.squared_error w b xs y
         <= LinearRegression.squared_error w' b' xs y.
Proof.
  unfold LinearRegression.fit.
  destruct (length X =? length y)%nat eqn:Hlen; [| discriminate].
  destruct (LinearRegression.column X) as [xs|] eqn:Hcol; [| discriminate].
  destruct (length xs =? 0)%nat eqn:Hn; [discriminate |].
  cbn [negb LinearRegression.new LinearRegression.copy_X].
  intros H. injection H as <- _.
  apply Nat.eqb_eq in Hlen. apply Nat.eqb_neq in Hn.
  pose proof (column_length X xs Hcol) as Hxs.
  assert (Hxy : length xs = length y) by congruence.
  assert (Hx0 : xs <> []) by (intros ->; apply Hn; reflexivity).
  assert (Hy0 : y <> []) by (intros ->; apply Hn; rewrite Hxy; reflexivity).
  eexists xs, _, _. split; [reflexivity |]. split; [reflexivity |].
  split; [reflexivity |].
  intros w' b'.
  set (mx := np.mean xs). set (my := np.mean y).
  set (Xc := LinearRegression.center mx xs).
  set (Yc := LinearRegression.center my y).
  set (w := np.dot Xc Yc / np.dot Xc Xc).
  pose proof (size_pos xs Hx0) as Hpos.
  pose proof (sum_mean xs Hx0) as Hsx. fold mx in Hsx.
  pose proof (sum_mean y Hy0) as Hsy. fold my in Hsy.
  rewrite <- (size_eq xs y Hxy) in Hsy.
  assert (Hsxx : np.dot Xc Xc == np.dot xs xs - np.size xs * mx * mx).
  { unfold Xc. rewrite dot_center by reflexivity. rewrite Hsx. ring. }
  assert (Hsxy : np.dot Xc Yc == np.dot xs y - np.size xs * mx * my).
  { unfold Xc, Yc. rewrite dot_center by exact Hxy. rewrite Hsx, Hsy. ring. }
  assert (Hw : w * np.dot Xc Xc == np.dot Xc Yc).
  { apply slope_equation. intros E. apply dot_self_zero. exact E. }
  pose proof (dot_self_nonneg Xc) as Hnn.
  rewrite !squared_error_expand by exact Hxy.
  rewrite Hsx, Hsy.
  assert (Hxy' : np.dot xs y == w * (np.dot xs xs - np.size xs * mx * mx) + np.size xs * mx * my).
  { rewrite <- Hsxx, Hw, Hsxy. ring. }
  rewrite Hxy'.
  set (c := b' + w' * mx - my).
  assert (Hgap : 0 <= np.dot Xc Xc * ((w' - w) * (w' - w)) + np.size xs * (c * c)).
  { pose proof (sq_nonneg (w' - w)). pose proof (sq_nonneg c).
    pose proof (Qmult_le_0_compat _ _ Hnn H).
    pose proof (Qmult_le_0_compat _ _ (Qlt_le_weak _ _ Hpos) H0). lra. }
  rewrite Hsxx in Hgap. unfold c in Hgap.
  apply Qle_minus_iff. apply Qle_minus_iff in Hgap.
  eapply Qle_trans; [exact Hgap |]. apply Qle_lteq. right. ring.
Qed.

(** The tolerance is met by any line whose squared error over the
    samples is at most 1e-11, the fitted one among them. *)
Lemma near_minimizer_within_tolerance :
  (forall w b,
     LinearRegression.squared_error w b [1; 2; 3; 4; 5] create_simple_model.y
     <= 0.00000000001 ->
     within 0.000001 w 2 /\ within 0.000005 b 1).
Proof.
  intros w b H.
  destruct (near_minimizer_close 0.000001 w b) as [Hw Hb]; [lra | |].
  - eapply Qle_trans; [exact H |]. vm_compute. discriminate.
  - split; [exact Hw |]. unfold within in *.
    eapply Qle_trans; [exact Hb |]. vm_compute. discriminate.
Qed.

End LeastSquares.

(** ** What the two kinds of model compute *)

(** A network of one inner-product layer from the input to the output. *)
Lemma predict_inner_product (m : mlmodel) (p : InnerProductLayerParams)
    (x : list Q) (lname iname oname : string) (n k : nat) :
  input (get_spec m) = [{| name := iname; type := datatypes.Array n |}] ->
  output (get_spec m) = [{| name := oname; type := datatypes.Array k |}] ->
  Type_ (get_spec m) =
    neuralNetwork [{| layer_name := lname; layer_input := iname;
                      layer_output := oname; innerProduct := p |}] ->
  length x = n ->
  predict m {[ iname := MultiArrayValue x ]} =
  (y ← inner_product p x; Some {[ oname := MultiArrayValue y ]}).
Proof.
  intros Hi Ho Ht Hn. unfold predict, read_inputs. rewrite Hi, Ho, Ht.
  cbn [mapM name type]. rewrite lookup_singleton_eq.
  cbn [mbind option_bind has_type]. rewrite Hn, Nat.eqb_refl.
  cbn [mret option_ret fmap option_map list_fmap mbind option_bind map
       fst snd numbers list_to_map foldr].
  unfold run_layers, run_layer.
  cbn [layer_input layer_output innerProduct mbind option_bind uncurry].
  rewrite lookup_insert_eq. cbn [mbind option_bind].
  destruct (inner_product p x) as [y|]; [| reflexivity].
  cbn [mbind option_bind mapM name]. rewrite lookup_insert_eq.
  cbn. reflexivity.
Qed.

Section Artifacts.
Local Open Scope Q_scope.

(** The model the manual-builder script saves is the builder's network
    with the script's metadata. *)
Lemma manual_saved_model (w : World) :
  saved_model create_simple_model_manual.main w =
  Some (create_simple_model_manual.add_metadata
          (MLModel (spec create_simple_model_manual.builder))).
Proof.
  unfold saved_model. rewrite manual_main_run. apply lookup_insert_eq.
Qed.

(** The saved network, applied to an array of one number. *)
Lemma predict_array_manual (x : Q) :
  exists y,
    predict_array (create_simple_model_manual.add_metadata
                     (MLModel (spec create_simple_model_manual.builder))) [x]
    = Some [y]
    /\ y == 2 * x + 1.
Proof.
  unfold predict_array.
  erewrite predict_inner_product
    with (iname := "input") (oname := "output") (n := 1%nat) (k := 1%nat);
    [| reflexivity | reflexivity | reflexivity | reflexivity].
  cbn [inner_product inputChannels length Nat.eqb negb mbind option_bind].
  rewrite lookup_singleton_eq.
  eexists. split; [reflexivity |].
  unfold np.dot, np.sum. simpl. ring.
Qed.

End Artifacts.

(** ** The manual builder *)

Section ManualBuilder.
Local Open Scope Q_scope.

(** C4: the manual-builder script declares one input array of length 1
    and one output array of length 1, and adds exactly one
    inner-product layer, from "input" to "output", with the weight
    matrix [[2]], the bias vector [1], the bias enabled, 1 input
    channel and 1 output channel; the model it saves in any world has
    these same features and this same layer. *)
Theorem manual_builder_layer :
  let s := spec create_simple_model_manual.builder in
  input s = [{| name := "input"; type := datatypes.Array 1 |}]
  /\ output s = [{| name := "output"; type := datatypes.Array 1 |}]
  /\ (exists l,
        Type_ s = neuralNetwork [l]
        /\ layer_input l = "input" /\ layer_output l = "output"
        /\ weights (innerProduct l) = [[2]]
        /\ bias (innerProduct l) = [1]
        /\ hasBias (innerProduct l) = true
        /\ inputChannels (innerProduct l) = 1%nat
        /\ outputChannels (innerProduct l) = 1%nat)
  /\ forall w, exists m,
       saved_model create_simple_model_manual.main w = Some m
       /\ input (get_spec m) = input s
       /\ output (get_spec m) = output s
       /\ Type_ (get_spec m) = Type_ s.
Proof.
  split; [reflexivity |]. split; [reflexivity |]. split.
  - eexists. repeat split; reflexivity.
  - intros w. eexists. split; [apply manual_saved_model |].
    repeat split; reflexivity.
Qed.

End ManualBuilder.

(** ** Metadata *)

(** The metadata assignments leave the features and the model itself
    as they were. *)
Lemma with_metadata_frame (f : Metadata -> Metadata) (m : mlmodel) :
  input (get_spec (with_metadata f m)) = input (get_spec m)
  /\ output (get_spec (with_metadata f m)) = output (get_spec m)
  /\ Type_ (get_spec (with_metadata f m)) = Type_ (get_spec m).
Proof. repeat split. Qed.

(** ** The file written *)

Lemma after_run_fs w path m lines :
  fs (after_run w path m lines) = <[path := m]> (fs w).
Proof. reflexivity. Qed.

Lemma after_run_stdout w path m lines :
  stdout (after_run w path m lines) = stdout w ++ lines.
Proof.
  unfold stdout, after_run. cbn [events].
  rewrite omap_app. cbn [omap]. f_equal.
  apply (stdout_app [] lines).
Qed.

(** ** The scripts under any behaviour of the library *)

(** The scripts are their parameterized forms at the library as it is
    embedded here. *)
Lemma trainer_main_instance :
  create_simple_model.main =
  trainer_main_with LinearRegression.fit converters_sklearn.convert save.
Proof. reflexivity. Qed.

Lemma manual_main_instance :
  create_simple_model_manual.main = manual_main_with save.
Proof. reflexivity. Qed.

Lemma printed_stdout (w : World) (lines : list string) :
  stdout (printed w lines) = stdout w ++ lines.
Proof. unfold stdout, printed. cbn [events]. apply stdout_app. Qed.

Lemma report_trainer (w : World) :
  create_simple_model.report w =
  (Ok tt, printed w ["✅ Created simple_model.mlmodel";
                     "   Formula: y = 2*x + 1";
                     "   Input: 'input' (double)";
                     "   Output: 'output' (double)"]).
Proof.
  unfold create_simple_model.report, print, printed.
  unfold mbind, script_bind, bind. cbn [events fs argv environ].
  rewrite <- !app_assoc. reflexivity.
Qed.

Lemma report_manual (w : World) :
  create_simple_model_manual.report w =
  (Ok tt, printed w ["âœ… Created simple_model.mlmodel";
                     "   Formula: y = 2*x + 1";
                     "   Input: 'input' (array of size 1)";
                     "   Output: 'output' (array of size 1)";
                     "   Test: input [3.0] should output [7.0]"]).
Proof.
  unfold create_simple_model_manual.report, print, printed.
  unfold mbind, script_bind, bind. cbn [events fs argv environ].
  rewrite <- !app_assoc. reflexivity.
Qed.

(** X1: the trainer-based script fits and converts before it saves or
    prints, so when the fit raises, or the fit returns and the
    conversion raises, whatever the fit, the conversion and the save
    are, the script ends with that exception in the world it started
    in: no file is written and no line is printed. *)
Theorem trainer_aborts_before_output :
  forall fit convert save' w e,
    (fit LinearRegression.new create_simple_model.X create_simple_model.y
     = Raise e
     \/ exists model X',
          fit LinearRegression.new create_simple_model.X create_simple_model.y
          = Ok (model, X')
          /\ convert model [("input", "double")] ["output"] = Raise e) ->
    trainer_main_with fit convert save' w = (Raise e, w).
Proof.
  intros fit convert save' w e [Hfit | (model & X' & Hfit & Hconv)];
    unfold trainer_main_with, call, mbind, script_bind, bind;
    rewrite Hfit; [reflexivity |].
  cbv beta iota. rewrite Hconv. reflexivity.
Qed.

(** An instance: with a fit that is handed four targets for the five
    samples, the script ends with the fit's error and leaves the empty
    world empty. *)
Lemma trainer_aborts_before_output_witness :
  trainer_main_with fit_short converters_sklearn.convert save empty_world
  = (Raise (ValueError "Found input variables with inconsistent numbers of samples"),
     empty_world).
Proof.
  apply trainer_aborts_before_output. left. reflexivity.
Defined.

(** X2: in both scripts the closing message depends on the save,
    whatever the save is.  When the save of the script's model under
    "simple_model.mlmodel" raises, the script ends with that exception
    in the world the save left, with nothing printed; when it returns,
    the script ends normally in that world with its lines printed and
    nothing else changed.  For the trainer-based script this is for
    any fit and conversion that return. *)
Theorem message_follows_save :
  (forall save' w,
     let model := create_simple_model_manual.add_metadata
                    (MLModel (spec create_simple_model_manual.builder)) in
     match save' model "simple_model.mlmodel" w with
     | (Raise e, w') => manual_main_with save' w = (Raise e, w')
     | (Ok _, w') =>
         exists g,
           manual_main_with save' w =
           (Ok g, printed w' ["âœ… Created simple_model.mlmodel";
                              "   Formula: y = 2*x + 1";
                              "   Input: 'input' (array of size 1)";
                              "   Output: 'output' (array of size 1)";
                              "   Test: input [3.0] should output [7.0]"])
           /\ create_simple_model_manual.g_model g = model
     end)
  /\ (forall fit convert save' w model X' coreml_model,
        fit LinearRegression.new create_simple_model.X create_simple_model.y
        = Ok (model, X') ->
        convert model [("input", "double")] ["output"] = Ok coreml_model ->
        match save' (create_simple_model.add_metadata coreml_model)
                    "simple_model.mlmodel" w with
        | (Raise e, w') => trainer_main_with fit convert save' w = (Raise e, w')
        | (Ok _, w') =>
            exists g,
              trainer_main_with fit convert save' w =
              (Ok g, printed w' ["✅ Created simple_model.mlmodel";
                                 "   Formula: y = 2*x + 1";
                                 "   Input: 'input' (double)";
                                 "   Output: 'output' (double)"])
              /\ create_simple_model.g_coreml_model g
                 = create_simple_model.add_metadata coreml_model
              /\ create_simple_model.g_model g = model
              /\ create_simple_model.g_X g = X'
        end).
Proof.
  split.
  - intros save' w model.
    unfold manual_main_with, mbind, script_bind, bind. fold model.
    destruct (save' model "simple_model.mlmodel" w) as [[[]|e] w'];
      [| reflexivity].
    rewrite report_manual. eexists. split; reflexivity.
  - intros fit convert save' w model X' cm Hfit Hconv.
    unfold trainer_main_with, call, mbind, script_bind, bind.
    rewrite Hfit. cbv beta iota. rewrite Hconv. cbv beta iota.
    destruct (save' (create_simple_model.add_metadata cm)
                    "simple_model.mlmodel" w) as [[[]|e] w']; [| reflexivity].
    rewrite report_trainer. eexists. repeat split; reflexivity.
Qed.

(** An instance: with a save that refuses to replace a file, the manual
    script run a second time ends with the save's error, and prints
    nothing more than the five lines of its first run. *)
Lemma message_follows_save_witness :
  let w1 := snd (manual_main_with save_exclusive empty_world) in
  manual_main_with save_exclusive w1 = (Raise (ValueError "File exists"), w1)
  /\ length (stdout w1) = 5%nat.
Proof.
  intros w1. split; [| reflexivity].
  pose proof (proj1 message_follows_save save_exclusive w1) as H.
  vm_compute in H. vm_compute. exact H.
Defined.

(** ** The fit on other data *)

Section FitInGeneral.
Local Open Scope Q_scope.

(** An instance of [fit_minimizes_squared_error]: on the samples
    (0, 1), (1, 0), (2, 2), which lie on no line, the fit returns a line
    that no line beats. *)
Lemma fit_minimizes_squared_error_witness :
  exists xs w b,
    LinearRegression.column [[0]; [1]; [2]] = Some xs
    /\ w == 1 # 2 /\ b == 1 # 2
    /\ forall w' b',
         LinearRegression.squared_error w b xs [1; 0; 2]
         <= LinearRegression.squared_error w' b' xs [1; 0; 2].
Proof.
  edestruct (fit_minimizes_squared_error [[0]; [1]; [2]] [1; 0; 2])
    as (xs & w & b & Hcol & Hw & Hb & Hmin).
  { vm_compute. reflexivity. }
  exists xs, w, b. cbn in Hw, Hb.
  injection Hw as <-. injection Hb as <-.
  split; [exact Hcol |]. split; [reflexivity |]. split; [reflexivity |].
  exact Hmin.
Defined.

Lemma column_singletons (xs : list Q) :
  LinearRegression.column (map (fun x => [x]) xs) = Some xs.
Proof.
  unfold LinearRegression.column.
  induction xs as [|x xs IH]; [reflexivity |].
  cbn [map mapM]. rewrite IH. reflexivity.
Qed.

Lemma sum_affine (a c : Q) (xs : list Q) :
  np.sum (map (fun x => a * x + c) xs) == a * np.sum xs + np.size xs * c.
Proof.
  induction xs as [|x xs IH].
  - unfold np.size. simpl. ring.
  - rewrite size_cons. unfold np.sum in *. cbn [map foldr]. rewrite IH. ring.
Qed.

Lemma dot_affine (a c : Q) (xs : list Q) :
  np.dot xs (map (fun x => a * x + c) xs)
  == a * np.dot xs xs + c * np.sum xs.
Proof.
  induction xs as [|x xs IH].
  - unfold np.dot, np.sum. simpl. ring.
  - cbn [map]. rewrite !dot_cons, IH. unfold np.sum. cbn [foldr]. ring.
Qed.

Lemma dot_self_zero_all (v : list Q) :
  np.dot v v == 0 -> Forall (fun x => x == 0) v.
Proof.
  induction v as [|a v IH]; intros H; [constructor |].
  rewrite dot_cons in H.
  pose proof (sq_nonneg a). pose proof (dot_self_nonneg v).
  constructor; [apply sq_le_zero; lra | apply IH; lra].
Qed.

(** Inputs of which two differ have a spread that is not zero. *)
Lemma spread_positive (xs : list Q) (i j : nat) (xi xj : Q) :
  xs !! i = Some xi -> xs !! j = Some xj -> ~ xi == xj ->
  ~ np.dot (LinearRegression.center (np.mean xs) xs)
           (LinearRegression.center (np.mean xs) xs) == 0.
Proof.
  intros Hi Hj Hne H0. apply dot_self_zero_all in H0.
  rewrite Forall_lookup in H0.
  assert (Hc : forall k x, xs !! k = Some x -> x == np.mean xs).
  { intros k x Hk.
    assert (Hk' : LinearRegression.center (np.mean xs) xs !! k
                  = Some (x - np.mean xs)).
    { unfold LinearRegression.center.
      change (map ?f ?l) with (f <$> l). rewrite list_lookup_fmap, Hk. reflexivity. }
    specialize (H0 k _ Hk'). simpl in H0. lra. }
  apply Hne. rewrite (Hc i xi Hi), (Hc j xj Hj). reflexivity.
Qed.

(** X7: on data that lie exactly on a line, targets a*x + c for inputs
    x of which two differ, the fit accepts the data, leaves the input
    array as it was, and returns exactly the slope a and the intercept
    c, whatever the line, the number of samples and their order are. *)
Theorem fit_exact_on_linear_data (a c : Q) (xs : list Q) (i j : nat) (xi xj : Q) :
  xs !! i = Some xi -> xs !! j = Some xj -> ~ xi == xj ->
  exists model w b,
    LinearRegression.fit LinearRegression.new
      (map (fun x => [x]) xs) (map (fun x => a * x + c) xs)
    = Ok (model, map (fun x => [x]) xs)
    /\ LinearRegression.coef_ model = Some [w]
    /\ LinearRegression.intercept_ model = Some b
    /\ w == a /\ b == c.
Proof.
  intros Hi Hj Hne.
  assert (Hx0 : xs <> []) by (intros ->; discriminate).
  unfold LinearRegression.fit.
  rewrite !length_map, Nat.eqb_refl, column_singletons.
  destruct (length xs =? 0)%nat eqn:Hn.
  { apply Nat.eqb_eq in Hn. destruct xs; [congruence | discriminate]. }
  cbn [negb LinearRegression.new LinearRegression.copy_X].
  eexists _, _, _. split; [reflexivity |]. split; [reflexivity |].
  split; [reflexivity |].
  set (y := map (fun x => a * x + c) xs).
  set (mx := np.mean xs). set (my := np.mean y).
  set (Xc := LinearRegression.center mx xs).
  set (Yc := LinearRegression.center my y).
  set (w := np.dot Xc Yc / np.dot Xc Xc).
  assert (Hlen : length xs = length y) by (unfold y; now rewrite length_map).
  assert (Hy0 : y <> []) by (intros E; rewrite E in Hlen; destruct xs; [congruence | discriminate]).
  pose proof (size_pos xs Hx0) as Hpos.
  pose proof (sum_mean xs Hx0) as Hsx. fold mx in Hsx.
  pose proof (sum_mean y Hy0) as Hsy. fold my in Hsy.
  rewrite <- (size_eq xs y Hlen) in Hsy.
  pose proof (sum_affine a c xs) as Hay. fold y in Hay.
  pose proof (dot_affine a c xs) as Hdy. fold y in Hdy.
  assert (Hmy : my == a * mx + c).
  { assert (E : np.size xs * my == np.size xs * (a * mx + c))
      by (rewrite <- Hsy, Hay, Hsx; ring).
    apply Qmult_inj_l in E; [exact E | lra]. }
  assert (Hsxx : np.dot Xc Xc == np.dot xs xs - np.size xs * mx * mx).
  { unfold Xc. rewrite dot_center by reflexivity. rewrite Hsx. ring. }
  assert (Hsxy : np.dot Xc Yc == a * np.dot Xc Xc).
  { rewrite Hsxx. unfold Xc, Yc. rewrite dot_center by exact Hlen.
    rewrite Hdy, Hay, Hsx, Hmy. ring. }
  assert (Hnz : ~ np.dot Xc Xc == 0) by (apply (spread_positive xs i j xi xj); assumption).
  assert (Hw : w == a).
  { assert (E : w * np.dot Xc Xc == a * np.dot Xc Xc).
    { rewrite <- Hsxy. apply slope_equation. intros E0. contradiction. }
    apply Qmult_inj_r in E; assumption. }
  split; [exact Hw |]. rewrite Hw, Hmy. ring.
Qed.

(** An instance: five samples of the line y = -3*x + 1/2, out of order
    and with a repeated input. *)
Lemma fit_exact_on_linear_data_witness :
  exists model w b,
    LinearRegression.fit LinearRegression.new
      (map (fun x => [x]) [4; 0; 4; -1; 7])
      (map (fun x => -3 * x + (1 # 2)) [4; 0; 4; -1; 7])
    = Ok (model, map (fun x => [x]) [4; 0; 4; -1; 7])
    /\ LinearRegression.coef_ model = Some [w]
    /\ LinearRegression.intercept_ model = Some b
    /\ w == -3 /\ b == 1 # 2.
Proof.
  apply (fit_exact_on_linear_data (-3) (1 # 2) [4; 0; 4; -1; 7]
           0%nat 1%nat 4 0 eq_refl eq_refl).
  vm_compute. discriminate.
Defined.

End FitInGeneral.

(** ** Lines that nearly fit the training data *)

Section NearFits.
Local Open Scope Q_scope.

(** X8: whatever computes the coefficients, a line w*x + b whose
    squared error over the five training pairs is at most 10*tol^2 has
    its slope within tol of 2 and its intercept within 5*tol of 1, and
    at every input x it is within (|x| + 5)*tol of 2*x + 1. *)
Theorem near_fits_predict_closely :
  forall tol w b,
    0 <= tol ->
    LinearRegression.squared_error w b [1; 2; 3; 4; 5] create_simple_model.y
    <= 10 * tol * tol ->
    LinearRegression.column create_simple_model.X = Some [1; 2; 3; 4; 5]
    /\ within tol w 2
    /\ within (5 * tol) b 1
    /\ forall x, within ((Qabs x + 5) * tol) (w * x + b) (2 * x + 1).
Proof.
  intros tol w b Ht H.
  destruct (near_minimizer_close tol w b Ht H) as [Hw Hb].
  split; [exact column_X |]. split; [exact Hw |]. split; [exact Hb |].
  intros x. unfold within in *.
  assert (E : w * x + b - (2 * x + 1) == (w - 2) * x + (b - 1)) by ring.
  rewrite E. eapply Qle_trans; [apply Qabs_triangle |].
  rewrite Qabs_Qmult.
  assert (H0 : 0 <= Qabs x) by apply Qabs_nonneg.
  assert (H2 : Qabs (w - 2) * Qabs x <= tol * Qabs x)
    by (apply Qmult_le_compat_r; assumption).
  lra.
Qed.

(** An instance: the line with slope 2.0000005 and intercept 0.999999
    has a squared error below 10 * (1e-6)^2 on the training pairs. *)
Lemma near_fits_predict_closely_witness :
  within 0.000001 2.0000005 2
  /\ within (5 * 0.000001) 0.999999 1
  /\ forall x,
       within ((Qabs x + 5) * 0.000001) (2.0000005 * x + 0.999999) (2 * x + 1).
Proof.
  apply (near_fits_predict_closely 0.000001 2.0000005 0.999999);
    vm_compute; discriminate.
Defined.

End NearFits.

(** ** The trainer-based script as it runs *)

Section TrainerRun.
Local Open Scope Q_scope.

(** The converter refuses the arguments of lines 20-24, whatever the
    estimator: "double" is not a type name it knows. *)
Lemma convert_refuses (model : LinearRegression.t) :
  exists msg,
    converters_sklearn.convert model [("input", "double")] ["output"]
    = Raise (TypeError msg).
Proof.
  unfold converters_sklearn.convert.
  destruct (LinearRegression.coef_ model), (LinearRegression.intercept_ model);
    eexists; reflexivity.
Qed.

(** The steps of the trainer-based script, one by one: the fit returns
    the line y = 2*x + 1 and leaves the samples as they were; the
    fitted estimator is what the conversion is given; when the
    conversion raises the script ends there, in the world it started
    in; when it returns, the converted model is saved with the
    script's metadata and the four lines are printed. *)
Lemma trainer_steps :
  exists model cw cb,
    LinearRegression.fit LinearRegression.new
      create_simple_model.X create_simple_model.y
    = Ok (model, create_simple_model.X)
    /\ LinearRegression.coef_ model = Some [cw]
    /\ LinearRegression.intercept_ model = Some cb
    /\ cw == 2 /\ cb == 1
    /\ forall convert' save' w,
         trainer_main_with LinearRegression.fit convert' save' w =
         match convert' model [("input", "double")] ["output"] with
         | Raise e => (Raise e, w)
         | Ok cm =>
             match save' (create_simple_model.add_metadata cm)
                         "simple_model.mlmodel" w with
             | (Raise e, w') => (Raise e, w')
             | (Ok _, w') =>
                 (Ok {| create_simple_model.g_X := create_simple_model.X;
                        create_simple_model.g_y := create_simple_model.y;
                        create_simple_model.g_model := model;
                        create_simple_model.g_coreml_model :=
                          create_simple_model.add_metadata cm |},
                  printed w' ["✅ Created simple_model.mlmodel";
                              "   Formula: y = 2*x + 1";
                              "   Input: 'input' (double)";
                              "   Output: 'output' (double)"])
             end
         end.
Proof.
  eexists _, _, _. split; [vm_compute; reflexivity |].
  split; [reflexivity |]. split; [reflexivity |].
  split; [reflexivity |]. split; [reflexivity |].
  intros convert' save' w.
  unfold trainer_main_with, call, mbind, script_bind, bind.
  match goal with
  | |- context [LinearRegression.fit ?m ?a ?b] =>
      let r := eval vm_compute in (LinearRegression.fit m a b) in
      change (LinearRegression.fit m a b) with r
  end.
  cbv beta iota.
  match goal with
  | |- context [convert' ?m _ _] => destruct (convert' m _ _) as [cm | e]
  end; [| reflexivity].
  destruct (save' (create_simple_model.add_metadata cm)
                  "simple_model.mlmodel" w) as [[[] | e] w']; [| reflexivity].
  rewrite report_trainer. reflexivity.
Qed.

(** A run of the trainer-based script ends at line 20 with the
    converter's TypeError, in the world it started in: nothing is
    written and nothing is printed. *)
Lemma trainer_main_raises (w : World) :
  exists msg, create_simple_model.main w = (Raise (TypeError msg), w).
Proof.
  destruct trainer_steps as (model & cw & cb & _ & _ & _ & _ & _ & Hsteps).
  destruct (convert_refuses model) as (msg & Hmsg).
  exists msg. rewrite trainer_main_instance, Hsteps, Hmsg. reflexivity.
Qed.

(** With a conversion that returns, the file holds what it returned,
    with the script's metadata. *)
Lemma trainer_saves_converted :
  exists model,
    LinearRegression.fit LinearRegression.new
      create_simple_model.X create_simple_model.y
    = Ok (model, create_simple_model.X)
    /\ forall convert' w cm,
         convert' model [("input", "double")] ["output"] = Ok cm ->
         exists g,
           trainer_main_with LinearRegression.fit convert' save w =
           (Ok g, after_run w "simple_model.mlmodel"
                    (create_simple_model.add_metadata cm)
                    ["✅ Created simple_model.mlmodel";
                     "   Formula: y = 2*x + 1";
                     "   Input: 'input' (double)";
                     "   Output: 'output' (double)"])
           /\ create_simple_model.g_X g = create_simple_model.X
           /\ create_simple_model.g_y g = create_simple_model.y
           /\ create_simple_model.g_model g = model
           /\ create_simple_model.g_coreml_model g
              = create_simple_model.add_metadata cm.
Proof.
  destruct trainer_steps as (model & cw & cb & Hfit & _ & _ & _ & _ & Hsteps).
  exists model. split; [exact Hfit |].
  intros convert' w cm Hconv. eexists.
  rewrite Hsteps, Hconv. unfold save at 1. cbv beta iota.
  split.
  - unfold printed, after_run. cbn [fs events argv environ].
    rewrite <- app_assoc. reflexivity.
  - repeat split; reflexivity.
Qed.

End TrainerRun.

(** ** The artifacts the runs leave *)

Section ArtifactsLeft.
Local Open Scope Q_scope.

(** C1, on the code: a run of the trainer-based script ends at line 20
    with the converter's TypeError and leaves the world as it was, so
    the file is as it was before the run and, from a world without
    it, there is no trainer-based artifact; the manual script saves in
    every world a model that declares exactly one input, "input", and
    exactly one output, "output", and returns 2*x + 1 on every [x].
    The two artifacts of the claim are not both there to agree. *)
Theorem trainer_artifact_never_written :
  forall w,
    (exists msg, create_simple_model.main w = (Raise (TypeError msg), w))
    /\ saved_model create_simple_model.main w
       = fs w !! "simple_model.mlmodel"
    /\ saved_model create_simple_model.main empty_world = None
    /\ exists mm,
         saved_model create_simple_model_manual.main w = Some mm
         /\ map name (input (get_spec mm)) = ["input"]
         /\ map name (output (get_spec mm)) = ["output"]
         /\ forall x, exists ym,
              predict_array mm [x] = Some [ym] /\ ym == 2 * x + 1.
Proof.
  intros w.
  assert (Hsaved : forall w0, saved_model create_simple_model.main w0
                              = fs w0 !! "simple_model.mlmodel").
  { intros w0. destruct (trainer_main_raises w0) as (msg & H).
    unfold saved_model. now rewrite H. }
  split; [apply trainer_main_raises |]. split; [apply Hsaved |].
  split; [rewrite Hsaved; reflexivity |].
  eexists. split; [apply manual_saved_model |].
  split; [reflexivity |]. split; [reflexivity |].
  apply predict_array_manual.
Qed.

(** C2, on the code: the model the manual script saves returns exactly
    [7] on [3] and exactly [1] on [0], in every world; a run of the
    trainer-based script ends with the converter's TypeError and
    leaves the file as it was, so there is no trainer-based artifact
    to evaluate. *)
Theorem evaluation_reaches_manual_artifact_only :
  forall w,
    (exists mm,
       saved_model create_simple_model_manual.main w = Some mm
       /\ predict_array mm [3] = Some [7]
       /\ predict_array mm [0] = Some [1])
    /\ (exists msg, create_simple_model.main w = (Raise (TypeError msg), w))
    /\ saved_model create_simple_model.main w
       = fs w !! "simple_model.mlmodel"
    /\ saved_model create_simple_model.main empty_world = None.
Proof.
  intros w. split.
  - eexists. split; [apply manual_saved_model |].
    split; vm_compute; reflexivity.
  - split; [apply trainer_main_raises |].
    split.
    + destruct (trainer_main_raises w) as (msg & H).
      unfold saved_model. now rewrite H.
    + destruct (trainer_main_raises empty_world) as (msg & H).
      unfold saved_model. now rewrite H.
Qed.

(** C3, on the code: the fit of line 17 returns the weight 2 and the
    bias 1 (within the tolerance 1e-6, the squared error over the
    samples being zero there and there only), and this fitted
    estimator is what the script hands to the converter; but the
    converter refuses the call of lines 20-24, so the run ends there
    and no artifact carries the coefficients.  With a conversion that
    returns, the script ends normally with the fitted estimator bound
    to [model] and the converted model saved. *)
Theorem fitted_coefficients_never_saved :
  exists model cw cb,
    LinearRegression.fit LinearRegression.new
      create_simple_model.X create_simple_model.y
    = Ok (model, create_simple_model.X)
    /\ LinearRegression.column create_simple_model.X = Some [1; 2; 3; 4; 5]
    /\ LinearRegression.coef_ model = Some [cw]
    /\ LinearRegression.intercept_ model = Some cb
    /\ cw == 2 /\ cb == 1
    /\ within 0.000001 cw 2 /\ within 0.000001 cb 1
    /\ LinearRegression.squared_error cw cb [1; 2; 3; 4; 5]
         create_simple_model.y == 0
    /\ (forall w' b',
          0 <= LinearRegression.squared_error w' b' [1; 2; 3; 4; 5]
                 create_simple_model.y
          /\ (LinearRegression.squared_error w' b' [1; 2; 3; 4; 5]
                create_simple_model.y
              <= LinearRegression.squared_error cw cb [1; 2; 3; 4; 5]
                   create_simple_model.y
              -> w' == 2 /\ b' == 1))
    /\ (forall convert' save' w e,
          convert' model [("input", "double")] ["output"] = Raise e ->
          trainer_main_with LinearRegression.fit convert' save' w
          = (Raise e, w))
    /\ (forall convert' w cm,
          convert' model [("input", "double")] ["output"] = Ok cm ->
          exists g w',
            trainer_main_with LinearRegression.fit convert' save w = (Ok g, w')
            /\ create_simple_model.g_model g = model
            /\ saved_model (trainer_main_with LinearRegression.fit convert' save) w
               = Some (create_simple_model.add_metadata cm))
    /\ (exists msg,
          converters_sklearn.convert model [("input", "double")] ["output"]
          = Raise (TypeError msg))
    /\ (forall w, exists msg,
          create_simple_model.main w = (Raise (TypeError msg), w)).
Proof.
  destruct trainer_steps
    as (model & cw & cb & Hfit & Hcoef & Hint & Hw & Hb & Hsteps).
  exists model, cw, cb.
  assert (H0 : LinearRegression.squared_error cw cb [1; 2; 3; 4; 5]
                 create_simple_model.y == 0).
  { rewrite squared_error_training, Hw, Hb. reflexivity. }
  split; [exact Hfit |]. split; [exact column_X |].
  split; [exact Hcoef |]. split; [exact Hint |].
  split; [exact Hw |]. split; [exact Hb |].
  split; [apply within_of_eq; [lra | exact Hw] |].
  split; [apply within_of_eq; [lra | exact Hb] |].
  split; [exact H0 |].
  split.
  { intros w' b'. split; [apply squared_error_nonneg |].
    intros H. apply minimizer_unique. rewrite H0 in H. exact H. }
  split.
  { intros convert' save' w e He. now rewrite Hsteps, He. }
  split.
  { intros convert' w cm Hcm. eexists _, _.
    unfold saved_model. rewrite Hsteps, Hcm. unfold save at 1 2.
    cbv beta iota. split; [reflexivity |]. split; [reflexivity |].
    cbn [snd printed fs]. apply lookup_insert_eq. }
  split; [apply convert_refuses |]. apply trainer_main_raises.
Qed.

(** C7, on the code: the manual script writes "simple_model.mlmodel" in
    every world, whether or not the file is there and whatever it
    holds, ends normally, and run again leaves the same file store;
    the trainer-based script does not: its run ends with the
    converter's TypeError, before line 32, and the world is as it
    was, so run after the manual script it leaves the manual model in
    the file, and run before it it has written nothing for the manual
    script to overwrite. *)
Theorem trainer_run_overwrites_nothing :
  exists mm,
    forall w,
      let wt := snd (create_simple_model.main w) in
      let wm := snd (create_simple_model_manual.main w) in
      is_ok (fst (create_simple_model.main w)) = false
      /\ wt = w
      /\ is_ok (fst (create_simple_model_manual.main w)) = true
      /\ fs wm = <["simple_model.mlmodel" := mm]> (fs w)
      /\ is_ok (fst (create_simple_model_manual.main wm)) = true
      /\ fs (snd (create_simple_model_manual.main wm)) = fs wm
      /\ saved_model create_simple_model.main wm = Some mm
      /\ saved_model create_simple_model_manual.main wt = Some mm
      /\ forall path, path <> "simple_model.mlmodel" ->
           fs wm !! path = fs w !! path.
Proof.
  eexists. intros w wt wm. subst wt wm.
  destruct (trainer_main_raises w) as (msg & Ht).
  destruct (trainer_main_raises (snd (create_simple_model_manual.main w)))
    as (msg' & Ht').
  unfold saved_model. rewrite Ht, Ht', !manual_main_run.
  cbn [fst snd is_ok]. rewrite !after_run_fs.
  split; [reflexivity |]. split; [reflexivity |].
  split; [reflexivity |]. split; [reflexivity |].
  split; [reflexivity |]. split; [apply insert_insert_eq |].
  split; [apply lookup_insert_eq |]. split; [apply lookup_insert_eq |].
  intros path Hne. apply lookup_insert_ne. congruence.
Qed.

(** C8, on the code: in every world the manual script ends normally,
    and what it adds to the event log is the save followed by its five
    lines, which confirm the file, restate the formula and describe
    the input and the output; the closing statements of the
    trainer-based script print four such lines when they run, but a
    run of that script ends with the converter's TypeError before
    them: it adds nothing to the event log and prints nothing. *)
Theorem trainer_run_prints_nothing :
  exists lt lm,
    success_message lt = true
    /\ success_message lm = true
    /\ (forall w, create_simple_model.report w = (Ok tt, printed w lt))
    /\ (forall w, exists g m,
          create_simple_model_manual.main w
          = (Ok g, after_run w "simple_model.mlmodel" m lm)
          /\ events (snd (create_simple_model_manual.main w))
             = events w ++ Saved "simple_model.mlmodel" m :: map Printed lm
          /\ stdout (snd (create_simple_model_manual.main w)) = stdout w ++ lm)
    /\ (forall w, exists msg,
          create_simple_model.main w = (Raise (TypeError msg), w))
    /\ (forall w,
          events (snd (create_simple_model.main w)) = events w
          /\ stdout (snd (create_simple_model.main w)) = stdout w).
Proof.
  exists ["✅ Created simple_model.mlmodel";
          "   Formula: y = 2*x + 1";
          "   Input: 'input' (double)";
          "   Output: 'output' (double)"],
         ["âœ… Created simple_model.mlmodel";
          "   Formula: y = 2*x + 1";
          "   Input: 'input' (array of size 1)";
          "   Output: 'output' (array of size 1)";
          "   Test: input [3.0] should output [7.0]"].
  split; [reflexivity |]. split; [reflexivity |].
  split; [intros w; apply report_trainer |].
  split.
  { intros w. eexists _, _. rewrite manual_main_run. cbn [snd].
    split; [reflexivity |]. split; [reflexivity |]. apply after_run_stdout. }
  split; [apply trainer_main_raises |].
  intros w. destruct (trainer_main_raises w) as (msg & H). rewrite H.
  split; reflexivity.
Qed.

End ArtifactsLeft.

(** ** The training data *)

Section TrainingData.
Local Open Scope Q_scope.

(** C5: the training set has exactly five inputs and five targets, the
    inputs 1..5 and the targets 3, 5, 7, 9, 11; every pair satisfies
    target = 2*input + 1; every number is one a float32 array holds
    exactly; and neither array is modified: the fit, the one call
    that is given them, returns the input array as it was, and
    whatever the conversion and the save do, a run of the script that
    ends normally ends with both names still bound to the literal
    values. *)
Theorem training_set_on_line :
  length create_simple_model.X = 5%nat
  /\ length create_simple_model.y = 5%nat
  /\ create_simple_model.X = [[1]; [2]; [3]; [4]; [5]]
  /\ create_simple_model.y = [3; 5; 7; 9; 11]
  /\ Forall2 (fun row target => exists x, row = [x] /\ target == 2 * x + 1)
             create_simple_model.X create_simple_model.y
  /\ forallb np.float32_integer
             (concat create_simple_model.X ++ create_simple_model.y) = true
  /\ (exists model,
        LinearRegression.fit LinearRegression.new
          create_simple_model.X create_simple_model.y
        = Ok (model, create_simple_model.X))
  /\ create_simple_model.main
     = trainer_main_with LinearRegression.fit converters_sklearn.convert save
  /\ forall convert' save' w g w',
       trainer_main_with LinearRegression.fit convert' save' w = (Ok g, w') ->
       create_simple_model.g_X g = create_simple_model.X
       /\ create_simple_model.g_y g = create_simple_model.y.
Proof.
  split; [reflexivity |]. split; [reflexivity |].
  split; [reflexivity |]. split; [reflexivity |].
  split.
  { unfold create_simple_model.X, create_simple_model.y.
    repeat constructor; eexists; (split; [reflexivity | reflexivity]). }
  split; [reflexivity |].
  destruct trainer_steps as (model & cw & cb & Hfit & _ & _ & _ & _ & Hsteps).
  split; [exists model; exact Hfit |].
  split; [reflexivity |].
  intros convert' save' w g w' H. rewrite Hsteps in H.
  destruct (convert' model [("input", "double")] ["output"]) as [cm | e];
    [| discriminate].
  destruct (save' (create_simple_model.add_metadata cm)
                  "simple_model.mlmodel" w) as [[[] | e] w1]; [| discriminate].
  injection H as <- _. split; reflexivity.
Qed.

(** An instance: with a conversion that returns, the script ends
    normally from the empty world, with the arrays as they were. *)
Lemma training_set_on_line_witness :
  exists g w',
    trainer_main_with LinearRegression.fit convert_accepting save empty_world
    = (Ok g, w')
    /\ create_simple_model.g_X g = create_simple_model.X
    /\ create_simple_model.g_y g = create_simple_model.y.
Proof.
  assert (E : exists g w',
             trainer_main_with LinearRegression.fit convert_accepting save
               empty_world = (Ok g, w'))
    by (eexists _, _; vm_compute; reflexivity).
  destruct E as (g & w' & E). exists g, w'. split; [exact E |].
  destruct training_set_on_line as (_ & _ & _ & _ & _ & _ & _ & _ & H).
  exact (H _ _ _ _ _ E).
Defined.

End TrainingData.

(** ** Metadata values *)

(** What the three assignments of each script leave in the metadata,
    whatever model they are applied to. *)
Lemma trainer_add_metadata (m : mlmodel) :
  metadata (get_spec (create_simple_model.add_metadata m)) =
  {| shortDescription := "Simple linear regression: y = 2*x + 1";
     author := "CoreML Experiment";
     versionString := "1.0" |}.
Proof. reflexivity. Qed.

Lemma manual_add_metadata (m : mlmodel) :
  metadata (get_spec (create_simple_model_manual.add_metadata m)) =
  {| shortDescription := "Simple linear function: y = 2*x + 1";
     author := "CoreML Experiment";
     versionString := "1.0" |}.
Proof. reflexivity. Qed.

(** C6, as the claim states it, fails: the short description that the
    manual artifact carries is not the one that lines 27-29 of the
    trainer-based script leave on a model, here on that same model. *)
Lemma short_description_literals_differ :
  exists mm,
    saved_model create_simple_model_manual.main empty_world = Some mm
    /\ shortDescription (metadata (get_spec mm))
       <> shortDescription
            (metadata (get_spec (create_simple_model.add_metadata mm))).
Proof.
  eexists. split; [apply manual_saved_model |].
  rewrite trainer_add_metadata, manual_add_metadata. discriminate.
Qed.

(** C6, amended: the metadata assignments of both scripts set the same
    three fields on the model they are applied to; the author is
    "CoreML Experiment" and the version is "1.0" in both; the short
    descriptions are each script's own, "Simple linear regression:
    y = 2*x + 1" in the trainer-based script and "Simple linear
    function: y = 2*x + 1" in the manual one, and both restate the
    formula.  The manual artifact carries the manual script's three
    values in every world; the model the trainer-based script saves
    carries that script's three values whenever the conversion returns
    a model. *)
Theorem metadata_fields :
  (forall m,
     metadata (get_spec (create_simple_model.add_metadata m)) =
     {| shortDescription := "Simple linear regression: y = 2*x + 1";
        author := "CoreML Experiment";
        versionString := "1.0" |})
  /\ (forall m,
        metadata (get_spec (create_simple_model_manual.add_metadata m)) =
        {| shortDescription := "Simple linear function: y = 2*x + 1";
           author := "CoreML Experiment";
           versionString := "1.0" |})
  /\ contains "y = 2*x + 1" "Simple linear regression: y = 2*x + 1" = true
  /\ contains "y = 2*x + 1" "Simple linear function: y = 2*x + 1" = true
  /\ (forall w, exists mm,
        saved_model create_simple_model_manual.main w = Some mm
        /\ metadata (get_spec mm) =
           {| shortDescription := "Simple linear function: y = 2*x + 1";
              author := "CoreML Experiment";
              versionString := "1.0" |})
  /\ (exists model,
        LinearRegression.fit LinearRegression.new
          create_simple_model.X create_simple_model.y
        = Ok (model, create_simple_model.X)
        /\ forall convert' w cm,
             convert' model [("input", "double")] ["output"] = Ok cm ->
             exists mt,
               saved_model (trainer_main_with LinearRegression.fit convert' save) w
               = Some mt
               /\ metadata (get_spec mt) =
                  {| shortDescription := "Simple linear regression: y = 2*x + 1";
                     author := "CoreML Experiment";
                     versionString := "1.0" |}).
Proof.
  split; [exact trainer_add_metadata |]. split; [exact manual_add_metadata |].
  split; [reflexivity |]. split; [reflexivity |].
  split.
  { intros w. eexists. split; [apply manual_saved_model |].
    apply manual_add_metadata. }
  destruct trainer_saves_converted as (model & Hfit & Hsaves).
  exists model. split; [exact Hfit |].
  intros convert' w cm Hcm.
  destruct (Hsaves convert' w cm Hcm) as (g & Hrun & _).
  eexists. split.
  - unfold saved_model. rewrite Hrun. apply lookup_insert_eq.
  - apply trainer_add_metadata.
Qed.

(** An instance: with a conversion that returns, the model saved from
    the empty world carries the three values of the trainer-based
    script. *)
Lemma metadata_fields_witness :
  exists mt,
    saved_model (trainer_main_with LinearRegression.fit convert_accepting save)
      empty_world = Some mt
    /\ metadata (get_spec mt) =
       {| shortDescription := "Simple linear regression: y = 2*x + 1";
          author := "CoreML Experiment";
          versionString := "1.0" |}.
Proof.
  destruct metadata_fields as (_ & _ & _ & _ & _ & model & Hfit & H).
  assert (E : exists cm,
             convert_accepting model [("input", "double")] ["output"] = Ok cm).
  { vm_compute in Hfit. injection Hfit as <-. eexists. reflexivity. }
  destruct E as (cm & E). exact (H convert_accepting empty_world cm E).
Defined.

(** C10: in both scripts the three metadata assignments change nothing
    but the metadata: for any model they are applied to, the input and
    output features and the model parameters are the same before and
    after.  The manual script saves the builder's network with the
    assignments applied, so the saved features, weights and bias are
    the builder's; the trainer-based script saves what the conversion
    returned with the assignments applied, so whenever the conversion
    returns a model the saved features and parameters are those of
    that model. *)
Theorem metadata_assignments_frame :
  (forall m,
     input (get_spec (create_simple_model.add_metadata m)) = input (get_spec m)
     /\ output (get_spec (create_simple_model.add_metadata m))
        = output (get_spec m)
     /\ Type_ (get_spec (create_simple_model.add_metadata m))
        = Type_ (get_spec m))
  /\ (forall m,
        input (get_spec (create_simple_model_manual.add_metadata m))
        = input (get_spec m)
        /\ output (get_spec (create_simple_model_manual.add_metadata m))
           = output (get_spec m)
        /\ Type_ (get_spec (create_simple_model_manual.add_metadata m))
           = Type_ (get_spec m))
  /\ (forall w, exists saved,
        saved_model create_simple_model_manual.main w = Some saved
        /\ input (get_spec saved)
           = input (spec create_simple_model_manual.builder)
        /\ output (get_spec saved)
           = output (spec create_simple_model_manual.builder)
        /\ Type_ (get_spec saved)
           = Type_ (spec create_simple_model_manual.builder))
  /\ (exists model,
        LinearRegression.fit LinearRegression.new
          create_simple_model.X create_simple_model.y
        = Ok (model, create_simple_model.X)
        /\ forall convert' w converted,
             convert' model [("input", "double")] ["output"] = Ok converted ->
             exists saved,
               saved_model (trainer_main_with LinearRegression.fit convert' save) w
               = Some saved
               /\ input (get_spec saved) = input (get_spec converted)
               /\ output (get_spec saved) = output (get_spec converted)
               /\ Type_ (get_spec saved) = Type_ (get_spec converted)).
Proof.
  split; [intros m; unfold create_simple_model.add_metadata,
            set_version, set_author, set_short_description;
          rewrite !(proj1 (with_metadata_frame _ _)),
                  !(proj1 (proj2 (with_metadata_frame _ _))),
                  !(proj2 (proj2 (with_metadata_frame _ _)));
          repeat split |].
  split; [intros m; unfold create_simple_model_manual.add_metadata,
            set_version, set_author, set_short_description;
          rewrite !(proj1 (with_metadata_frame _ _)),
                  !(proj1 (proj2 (with_metadata_frame _ _))),
                  !(proj2 (proj2 (with_metadata_frame _ _)));
          repeat split |].
  split.
  - intros w. eexists. split; [apply manual_saved_model |]. repeat split.
  - destruct trainer_saves_converted as (model & Hfit & Hsaves).
    exists model. split; [exact Hfit |].
    intros convert' w cm Hcm.
    destruct (Hsaves convert' w cm Hcm) as (g & Hrun & _).
    eexists. split.
    + unfold saved_model. rewrite Hrun. apply lookup_insert_eq.
    + repeat split.
Qed.

(** An instance: with a conversion that returns, the model saved from
    the empty world has the features and the parameters of the
    converted model. *)
Lemma metadata_assignments_frame_witness :
  exists converted saved,
    saved_model (trainer_main_with LinearRegression.fit convert_accepting save)
      empty_world = Some saved
    /\ input (get_spec saved) = input (get_spec converted)
    /\ output (get_spec saved) = output (get_spec converted)
    /\ Type_ (get_spec saved) = Type_ (get_spec converted).
Proof.
  destruct metadata_assignments_frame as (_ & _ & _ & model & Hfit & H).
  assert (E : exists cm,
             convert_accepting model [("input", "double")] ["output"] = Ok cm).
  { vm_compute in Hfit. injection Hfit as <-. eexists. reflexivity. }
  destruct E as (cm & E). exists cm.
  exact (H convert_accepting empty_world cm E).
Defined.

(** ** Determinism *)

Lemma world_eta (w : World) :
  {| fs := fs w; events := events w ++ []; argv := argv w;
     environ := environ w |} = w.
Proof. destruct w. cbn. now rewrite app_nil_r. Qed.

(** C9: neither script reads the command line, the environment, the
    file store or anything else of the world it starts in.  Any two
    runs of the manual script, from any two worlds, end normally with
    the same values bound to the script's names, leave the same model
    in the file and print the same lines.  Any two runs of the
    trainer-based script end with the same exception and add nothing
    to their worlds.  And whatever the fit and the conversion return
    or raise, the outcome of the trainer-based script, the model it
    writes if any, and what it adds to the event log are the same from
    every world. *)
Theorem runs_deterministic :
  (forall w1 w2,
     is_ok (fst (create_simple_model_manual.main w1)) = true
     /\ fst (create_simple_model_manual.main w1)
        = fst (create_simple_model_manual.main w2)
     /\ saved_model create_simple_model_manual.main w1
        = saved_model create_simple_model_manual.main w2
     /\ exists lines,
          stdout (snd (create_simple_model_manual.main w1))
          = stdout w1 ++ lines
          /\ stdout (snd (create_simple_model_manual.main w2))
             = stdout w2 ++ lines)
  /\ (forall w1 w2,
        fst (create_simple_model.main w1) = fst (create_simple_model.main w2)
        /\ snd (create_simple_model.main w1) = w1
        /\ snd (create_simple_model.main w2) = w2)
  /\ (forall fit' convert',
        exists outcome written added,
          forall w,
            trainer_main_with fit' convert' save w =
            (outcome,
             {| fs := match written with
                      | Some m => <["simple_model.mlmodel" := m]> (fs w)
                      | None => fs w
                      end;
                events := events w ++ added;
                argv := argv w;
                environ := environ w |})).
Proof.
  split; [| split].
  - intros w1 w2. unfold saved_model. rewrite !manual_main_run.
    cbn [fst snd is_ok]. rewrite !after_run_fs, !lookup_insert_eq.
    split; [reflexivity |]. split; [reflexivity |]. split; [reflexivity |].
    eexists. split; apply after_run_stdout.
  - intros w1 w2.
    destruct trainer_steps as (model & cw & cb & _ & _ & _ & _ & _ & Hsteps).
    destruct (convert_refuses model) as (msg & Hmsg).
    rewrite !trainer_main_instance, !Hsteps, Hmsg.
    split; [reflexivity |]. split; reflexivity.
  - intros fit' convert'. unfold trainer_main_with, call, mbind, script_bind, bind.
    destruct (fit' LinearRegression.new create_simple_model.X
                create_simple_model.y) as [[model X'] | e].
    + destruct (convert' model [("input", "double")] ["output"]) as [cm | e].
      * eexists _, (Some _), _. intros w. unfold save at 1. cbv beta iota.
        rewrite report_trainer. unfold printed. cbn [fs events argv environ].
        rewrite <- app_assoc. reflexivity.
      * exists (Raise e), None, []. intros w. now rewrite world_eta.
    + exists (Raise e), None, []. intros w. now rewrite world_eta.
Qed.

(** ** Sequences of runs *)





(** ** The closing messages side by side *)

(** X5: the closing messages of the two scripts are not the same
    text.  The first line that the closing statements of the
    trainer-based script print, when a run reaches them, starts with
    the three bytes E2 9C 85, the check mark; the first line the
    manual script prints in every run starts with the seven bytes
    C3 A2 C5 93 E2 80 A6 instead; after these bytes both lines read
    " Created simple_model.mlmodel".  The second lines, with the
    formula, are equal; the lines on the input and the output name
    different types; and the manual script prints a fifth line, which
    the trainer-based script does not have. *)
Theorem closing_messages_differ :
  exists lt lm,
    (forall w, create_simple_model.report w = (Ok tt, printed w lt))
    /\ (forall w, stdout (snd (create_simple_model_manual.main w))
                  = stdout w ++ lm)
    /\ length lt = 4%nat /\ length lm = 5%nat
    /\ (exists t1 m1,
          lt !! 0%nat = Some t1 /\ lm !! 0%nat = Some m1
          /\ t1 <> m1
          /\ map Ascii.nat_of_ascii
                 (String.list_ascii_of_string (String.substring 0 3 t1))
             = [226; 156; 133]%nat
          /\ map Ascii.nat_of_ascii
                 (String.list_ascii_of_string (String.substring 0 7 m1))
             = [195; 162; 197; 147; 226; 128; 166]%nat
          /\ String.substring 3 (String.length t1 - 3) t1
             = " Created simple_model.mlmodel"
          /\ String.substring 7 (String.length m1 - 7) m1
             = " Created simple_model.mlmodel")
    /\ lt !! 1%nat = lm !! 1%nat
    /\ lt !! 2%nat <> lm !! 2%nat
    /\ lt !! 3%nat <> lm !! 3%nat
    /\ lm !! 4%nat = Some "   Test: input [3.0] should output [7.0]".
Proof.
  eexists _, _.
  split; [intros w; apply report_trainer |].
  split; [intros w; rewrite manual_main_run; apply after_run_stdout |].
  split; [reflexivity |]. split; [reflexivity |].
  split.
  { eexists _, _. split; [reflexivity |]. split; [reflexivity |].
    split; [discriminate |]. repeat split; vm_compute; reflexivity. }
  split; [reflexivity |].
  split; [discriminate |]. split; [discriminate |]. reflexivity.
Qed.
